(** * Autonomous-Vehicle vision package: camera source and frame processor

    A shallow embedding of [vision/start_camera.py] (class [Camera]) and
    [vision/detect.py] (class [ObjectDetection]), with the properties of
    the specification stated and proved over it.

    Python objects are mutated in place and exceptions leave the mutations
    made so far: every method is a function from the receiver's state to an
    outcome (a value or a raised exception) together with the state left
    behind.  Python [int] is [Z]; Python and NumPy [float] are IEEE binary64,
    the kernel's primitive floats. *)

From Stdlib Require Import ZArith List Lia Floats.
From stdpp Require Import base option list strings gmap pretty.

Set Warnings "-inexact-float,-register-all".
Local Open Scope Z_scope.
Local Open Scope string_scope.
Local Open Scope list_scope.

(** ** Python outcomes *)

(** The exceptions the two modules can raise.  [Exception] is Python's base
    class raised with a message, as [start_camera.py] does; the others are the
    built-in exceptions of unpacking, indexing, attribute access, number
    conversion, [open] and the [json] module, and OpenCV's [cv2.error]. *)
Inductive exn : Type :=
| Exception (msg : string)
| ValueError
| IndexError
| AttributeError
| KeyError
| OverflowError
| TypeError
| FileNotFoundError
| IsADirectoryError
| PermissionError
| cv2_error.

Inductive outcome (A : Type) : Type :=
| Returned (a : A)
| Raised (e : exn).
Arguments Returned {A} a.
Arguments Raised {A} e.

Definition raised {A} (o : outcome A) : bool :=
  match o with Returned _ => false | Raised _ => true end.

(** A method of an object with state [S]: the outcome and the state after. *)
Definition Eff (S A : Type) : Type := S -> outcome A * S.

Definition raise {S A} (e : exn) : Eff S A := fun s => (Raised e, s).
Definition get {S} : Eff S S := fun s => (Returned s, s).
Definition modify {S} (f : S -> S) : Eff S unit := fun s => (Returned tt, f s).
Definition lift {S A} (o : outcome A) : Eff S A := fun s => (o, s).

(** Sequencing stops at the first exception and keeps the state it left. *)
#[global] Instance eff_ret {S} : MRet (Eff S) :=
  fun A a s => (Returned a, s).
#[global] Instance eff_bind {S} : MBind (Eff S) :=
  fun A B k m s =>
    match m s with
    | (Returned a, s') => k a s'
    | (Raised e, s') => (Raised e, s')
    end.

(** Exceptions alone, for the methods that touch no state. *)
#[global] Instance outcome_ret : MRet outcome := fun A a => Returned a.
#[global] Instance outcome_bind : MBind outcome :=
  fun A B k o =>
    match o with
    | Returned a => k a
    | Raised e => Raised e
    end.

Definition when {S} (b : bool) (m : Eff S unit) : Eff S unit :=
  if b then m else mret tt.

(** ** Python numbers and values *)

Module Py.

(** [int(x)] of a float: truncation toward zero; [nan] and the infinities
    raise. *)
Definition int_of_float (x : float) : outcome Z :=
  match Prim2SF x with
  | S754_zero _ => Returned 0
  | S754_infinity _ => Raised OverflowError
  | S754_nan => Raised ValueError
  | S754_finite s m e =>
      let magnitude := Z.shiftl (Z.pos m) e in
      Returned (if s then - magnitude else magnitude)
  end.

(** The binary64 nearest to an integer (ties to even). *)
Definition nearest_float (z : Z) : float :=
  SF2Prim (binary_normalize prec emax z 0 false).

(** The least magnitude that rounds past the largest binary64: half-way
    between it, [2^1024 - 2^971], and [2^1024]. *)
Definition float_overflow : Z := 2 ^ 1024 - 2 ^ 970.

(** An [int] operand of a float operation is converted to the nearest
    binary64; an int too large for that raises ("int too large to convert to
    float"). *)
Definition float_of_int (z : Z) : outcome float :=
  if (Z.abs z <? float_overflow)%Z then Returned (nearest_float z)
  else Raised OverflowError.

(** [a, b, c, d = seq] for a list. *)
Definition unpack4 {A} (seq : list A) : outcome (A * A * A * A) :=
  match seq with
  | [a; b; c; d] => Returned (a, b, c, d)
  | _ => Raised ValueError
  end.

(** [a, b, c, d = map(int, seq)]: the items are converted one at a time as
    the unpacking pulls them, so a conversion error comes first; the
    unpacking pulls a fifth item to find out that there are too many. *)
Fixpoint pull_ints (n : nat) (seq : list float) : outcome (list Z) :=
  match n with
  | O => Returned []
  | S n' =>
      match seq with
      | [] => Raised ValueError
      | x :: rest =>
          z ← int_of_float x;
          zs ← pull_ints n' rest;
          mret (z :: zs)
      end
  end.

Definition unpack4_ints (seq : list float) : outcome (Z * Z * Z * Z) :=
  zs ← pull_ints 4 seq;
  match drop 4 seq with
  | [] => unpack4 zs
  | x :: _ => _ ← int_of_float x; Raised ValueError
  end.

(** [seq[i]] for a non-negative constant index. *)
Definition index {A} (seq : list A) (i : nat) : outcome A :=
  match seq !! i with
  | Some a => Returned a
  | None => Raised IndexError
  end.

(** [array[i, j]] of a two-dimensional NumPy array, given by its rows. *)
Definition index2 {A} (array : list (list A)) (i j : nat) : outcome A :=
  match array !! i with
  | Some row => index row j
  | None => Raised IndexError
  end.

(** [obj.name], where the object may or may not have the attribute. *)
Definition getattr {A} (attribute : option A) : outcome A :=
  match attribute with
  | Some a => Returned a
  | None => Raised AttributeError
  end.

(** [d[k]] of a dict. *)
Definition getitem {V} (d : gmap Z V) (k : Z) : outcome V :=
  match d !! k with
  | Some v => Returned v
  | None => Raised KeyError
  end.

(** [for x in seq: body], threading the variables the body updates and
    stopping at the first exception. *)
Fixpoint for_each {A S} (body : A -> S -> outcome S) (seq : list A) (s : S)
    : outcome S :=
  match seq with
  | [] => Returned s
  | x :: rest => s' ← body x s; for_each body rest s'
  end.

(** [[f(x) for x in seq]], stopping at the first exception. *)
Definition collect {A B} (f : A -> outcome B) : list A -> outcome (list B) :=
  fix go (seq : list A) : outcome (list B) :=
    match seq with
    | [] => Returned []
    | x :: rest => y ← f x; ys ← go rest; mret (y :: ys)
    end.

(** The values that reach [json.dump]: dicts keep insertion order and have
    string keys here; [PyObject] stands for any object the encoder has no
    rule for. *)
Inductive value : Type :=
| PyNone
| PyBool (b : bool)
| PyInt (z : Z)
| PyFloat (x : float)
| PyStr (s : string)
| PyTuple (items : list value)
| PyList (items : list value)
| PyDict (items : list (string * value))
| PyObject (type_name : string).

End Py.

(** ** The capture device (cv2.VideoCapture) *)

Module cv2.

(** The three properties [start_camera.py] sets. *)
Inductive cap_prop : Type :=
| CAP_PROP_FRAME_WIDTH
| CAP_PROP_FRAME_HEIGHT
| CAP_PROP_FPS.

(** A drawing call made on a frame (module [detect.py]). *)
Inductive drawing : Type :=
| rectangle_call (pt1 pt2 : Z * Z) (color : Z * Z * Z) (thickness : Z)
| putText_call (text : string) (org : Z * Z) (fontFace : Z)
               (fontScale : float) (color : Z * Z * Z) (thickness : Z).

(** A frame: the pixels as they were captured, and the drawing calls made on
    the array since, oldest first.  The pixels of the array now are the
    captured ones overwritten by those drawings, in that order. *)
Record Frame : Type := mkFrame {
  captured : list Z;
  overlay : list drawing
}.

(** A capture handle: whether the device is open, the [set] calls it has
    received (oldest first), and the grabs to come.  What a grab delivers
    ([None]: it fails) may depend on the requests the device has received by
    then: a device honours a request or not. *)
Record VideoCapture : Type := mkVideoCapture {
  opened : bool;
  requests : list (cap_prop * Z);
  pending : list (list (cap_prop * Z) -> option Frame)
}.

Definition isOpened (d : VideoCapture) : bool := opened d.

Definition set (p : cap_prop) (v : Z) (d : VideoCapture) : VideoCapture :=
  mkVideoCapture (opened d) (requests d ++ [(p, v)]) (pending d).

Definition release (d : VideoCapture) : VideoCapture :=
  mkVideoCapture false (requests d) (pending d).

(** [read] returns the pair [(ret, frame)]; a closed device delivers
    nothing. *)
Definition read (d : VideoCapture) : (bool * option Frame) * VideoCapture :=
  if opened d then
    match pending d with
    | grab :: rest =>
        match grab (requests d) with
        | Some f => ((true, Some f), mkVideoCapture true (requests d) rest)
        | None => ((false, None), mkVideoCapture true (requests d) rest)
        end
    | [] => ((false, None), d)
    end
  else ((false, None), d).

Definition FONT_HERSHEY_SIMPLEX : Z := 0.

(** A point is passed to OpenCV as two C [int]s. *)
Definition fits_int (v : Z) : bool := ((- 2 ^ 31 <=? v) && (v <? 2 ^ 31))%Z.
Definition is_point (pt : Z * Z) : bool := fits_int pt.1 && fits_int pt.2.

Definition draw (call : drawing) (f : Frame) : Frame :=
  mkFrame (captured f) (overlay f ++ [call]).

(** [cv2.rectangle(img, pt1, pt2, color, thickness)] draws on [img] in place;
    a corner that is no point is refused before anything is drawn. *)
Definition rectangle (pt1 pt2 : Z * Z) (color : Z * Z * Z) (thickness : Z)
    : Eff Frame unit :=
  if is_point pt1 && is_point pt2
  then modify (draw (rectangle_call pt1 pt2 color thickness))
  else raise cv2_error.

(** [cv2.putText(img, text, org, fontFace, fontScale, color, thickness)],
    likewise. *)
Definition putText (text : string) (org : Z * Z) (fontFace : Z)
    (fontScale : float) (color : Z * Z * Z) (thickness : Z) : Eff Frame unit :=
  if is_point org
  then modify (draw (putText_call text org fontFace fontScale color thickness))
  else raise cv2_error.

End cv2.

(** ** start_camera.py: class Camera *)

Module Camera.
Import cv2.

Record Camera : Type := mkCamera {
  camera_id : Z;
  width : Z;
  height : Z;
  fps : Z;
  cap : option VideoCapture
}.

(** [Camera(camera_id=0, width=640, height=480, fps=60)] *)
Definition __init__ (camera_id width height fps : Z) : Camera :=
  mkCamera camera_id width height fps None.

Definition default : Camera := __init__ 0 640 480 60.

Definition set_cap (h : option VideoCapture) (c : Camera) : Camera :=
  mkCamera (camera_id c) (width c) (height c) (fps c) h.
Definition set_width (w : Z) (c : Camera) : Camera :=
  mkCamera (camera_id c) w (height c) (fps c) (cap c).
Definition set_height (h : Z) (c : Camera) : Camera :=
  mkCamera (camera_id c) (width c) h (fps c) (cap c).
Definition set_fps_field (f : Z) (c : Camera) : Camera :=
  mkCamera (camera_id c) (width c) (height c) f (cap c).

(** [self.cap.set(prop, value)] on the handle held by the camera. *)
Definition cap_set (p : cap_prop) (v : Z) : Eff Camera unit :=
  modify (fun c => set_cap (cv2.set p v <$> cap c) c).

(** [self.cap is not None and self.cap.isOpened()] *)
Definition cap_is_open (c : Camera) : bool :=
  match cap c with
  | Some d => isOpened d
  | None => false
  end.

Definition not_opened : exn := Exception "Error: Camera is not opened".
Definition capture_failed : exn :=
  Exception "Error: Failed to capture frame from the camera".
Definition unable_to_open (id : Z) : exn :=
  Exception ("Error: Unable to open the camera with ID " +:+ pretty id).

(** [start]: [VideoCapture] is what [cv2.VideoCapture(camera_id)] hands
    back on this machine. *)
Definition start (VideoCapture : Z -> cv2.VideoCapture) : Eff Camera unit :=
  self ← get;
  let d := VideoCapture (camera_id self) in
  modify (set_cap (Some d));;
  if negb (isOpened d) then raise (unable_to_open (camera_id self))
  else
    self ← get;
    cap_set CAP_PROP_FRAME_WIDTH (width self);;
    cap_set CAP_PROP_FRAME_HEIGHT (height self);;
    cap_set CAP_PROP_FPS (fps self).

Definition get_frame : Eff Camera (option Frame) :=
  self ← get;
  match cap self with
  | None => raise not_opened
  | Some d =>
      if negb (isOpened d) then raise not_opened
      else
        let '((ret, frame), d') := read d in
        modify (set_cap (Some d'));;
        if negb ret then raise capture_failed
        else mret frame
  end.

Definition stop : Eff Camera unit :=
  self ← get;
  when (cap_is_open self) (modify (fun c => set_cap (release <$> cap c) c)).

(** [self.cap.isOpened() if self.cap else False]: a capture handle is
    always truthy, so the test is on [None]. *)
Definition is_opened : Eff Camera bool :=
  self ← get;
  match cap self with
  | Some d => mret (isOpened d)
  | None => mret false
  end.

Definition set_resolution (width height : Z) : Eff Camera unit :=
  modify (set_width width);;
  modify (set_height height);;
  self ← get;
  when (cap_is_open self)
       (cap_set CAP_PROP_FRAME_WIDTH (Camera.width self);;
        cap_set CAP_PROP_FRAME_HEIGHT (Camera.height self)).

Definition set_fps (fps : Z) : Eff Camera unit :=
  modify (set_fps_field fps);;
  self ← get;
  when (cap_is_open self) (cap_set CAP_PROP_FPS (Camera.fps self)).

(** The specification's error kind for [get_frame]: the device is not open,
    or the read failed. *)
Definition CaptureError (e : exn) : Prop :=
  e = not_opened \/ e = capture_failed.


End Camera.

(** ** The detector (ultralytics.YOLO), as [detect.py] uses it *)

Module ultralytics.

(** One row of [result.boxes.xyxy], as [detect_objects] reads it: iterating
    it gives the corner coordinates, and its [cls] attribute, when the row
    has one, holds the class index. *)
Record Box : Type := mkBox {
  coordinates : list float;
  cls : option (list float)
}.

Record Boxes : Type := mkBoxes { xyxy : list Box }.

Record Result : Type := mkResult {
  boxes : Boxes;
  names : gmap Z string
}.

End ultralytics.

(** ** detect.py: class ObjectDetection *)

Module ObjectDetection.
Import cv2 Py ultralytics.

Record ObjectDetection : Type := mkObjectDetection {
  model : Frame -> list Result;
  camera_matrix : list (list float);
  object_height : float
}.

(** An entry of the list [detect_objects] returns:
    [{'class': ..., 'bounding_box': [x_min, y_min, x_max, y_max]}]. *)
Record Detection : Type := mkDetection {
  class : string;
  bounding_box : list Z
}.

Definition detect_box (result : Result) (box : Box)
    (detected_objects : list Detection) : outcome (list Detection) :=
  '(x_min, y_min, x_max, y_max) ← unpack4_ints (coordinates box);
  box_cls ← getattr (cls box);
  c ← index box_cls 0;
  k ← int_of_float c;
  obj_class ← getitem (names result) k;
  mret (detected_objects ++ [mkDetection obj_class [x_min; y_min; x_max; y_max]]).

Definition detect_objects (self : ObjectDetection) (frame : Frame)
    : outcome (list Detection) :=
  let results := model self frame in
  for_each (fun result => for_each (detect_box result) (xyxy (boxes result)))
           results [].

Definition calculate_distance (self : ObjectDetection) (bounding_box : list Z)
    : outcome float :=
  '(x_min, y_min, x_max, y_max) ← unpack4 bounding_box;
  let pixel_height := y_max - y_min in
  focal_length ← index2 (camera_matrix self) 1 1;
  height ← float_of_int pixel_height;
  let distance := ((object_height self * focal_length) / height)%float in
  mret distance.

Definition get_center (bounding_box : list Z) : outcome (Z * Z) :=
  '(x_min, y_min, x_max, y_max) ← unpack4 bounding_box;
  let center_x := x_min + (x_max - x_min) `div` 2 in
  let center_y := y_min + (y_max - y_min) `div` 2 in
  mret (center_x, center_y).

Definition draw_bounding_box (bounding_box : list Z) (obj_class : string)
    : Eff Frame unit :=
  '(x_min, y_min, x_max, y_max) ← lift (unpack4 bounding_box);
  rectangle (x_min, y_min) (x_max, y_max) (0, 255, 0) 2;;
  putText obj_class (x_min, y_min - 10) FONT_HERSHEY_SIMPLEX
          0.9%float (0, 255, 0) 2.

(** The dict appended to [object_data["objects"]]. *)
Definition object_record (obj_class : string) (distance : float)
    (center : Z * Z) : value :=
  PyDict [("class", PyStr obj_class);
          ("distance", PyFloat distance);
          ("center", PyTuple [PyInt (fst center); PyInt (snd center)])].

Definition process_object (self : ObjectDetection) (obj : Detection)
    (objects : list value) : Eff Frame (list value) :=
  let bounding_box := bounding_box obj in
  let obj_class := class obj in
  distance ← lift (calculate_distance self bounding_box);
  center ← lift (get_center bounding_box);
  let objects := objects ++ [object_record obj_class distance center] in
  draw_bounding_box bounding_box obj_class;;
  mret objects.

Fixpoint process_objects (self : ObjectDetection) (detected_objects : list Detection)
    (objects : list value) : Eff Frame (list value) :=
  match detected_objects with
  | [] => mret objects
  | obj :: rest =>
      objects ← process_object self obj objects;
      process_objects self rest objects
  end.

(** [process_frame]: the state is the caller's frame, drawn on in place. *)
Definition process_frame (self : ObjectDetection) : Eff Frame value :=
  frame ← get;
  detected_objects ← lift (detect_objects self frame);
  objects ← process_objects self detected_objects [];
  mret (PyDict [("objects", PyList objects)]).

End ObjectDetection.

(** ** The json module and save_to_json *)

Module json.
Import Py.

(** A JSON document.  A number written with a fraction, an exponent or as
    [Infinity]/[NaN], as floats are, is a [Real]; one written with digits
    only is an [Int]. *)
Inductive document : Type :=
| Null
| Bool (b : bool)
| Int (z : Z)
| Real (x : float)
| String (s : string)
| Array (items : list document)
| Object (members : list (string * document)).

(** What is in a file written through [json.dump]: a document laid out with
    some indentation, or, when the encoder stopped half-way (or nothing was
    written yet), an unfinished text. *)
Inductive file : Type :=
| Text (indent : Z) (doc : document)
| Unfinished.

(** The file system: the files it holds, and what stands in the way of
    opening a name for writing on this machine (a missing directory, a
    directory of that name, a missing permission). *)
Record FileSystem : Type := mkFileSystem {
  files : gmap string file;
  refused : string -> option exn
}.

#[global] Instance filesystem_lookup : Lookup string file FileSystem :=
  fun name disk => files disk !! name.
#[global] Instance filesystem_insert : Insert string file FileSystem :=
  fun name f disk => mkFileSystem (<[name := f]> (files disk)) (refused disk).
#[global] Instance filesystem_empty : Empty FileSystem :=
  mkFileSystem ∅ (fun _ => None).

(** [str(n)] of an int refuses more than 4300 digits. *)
Definition max_str_digits : Z := 4300.

(** The encoder's table: dict to object, list and tuple to array, str to
    string, int and float to number; an int is written through [str], which
    raises [ValueError] beyond the digit limit; anything else is a
    [TypeError]. *)
Fixpoint encode (v : value) : outcome document :=
  match v with
  | PyNone => Returned Null
  | PyBool b => Returned (Bool b)
  | PyInt z =>
      if (Z.abs z <? 10 ^ max_str_digits)%Z then Returned (Int z)
      else Raised ValueError
  | PyFloat x => Returned (Real x)
  | PyStr s => Returned (String s)
  | PyTuple items | PyList items =>
      docs ← collect encode items;
      mret (Array docs)
  | PyDict items =>
      members ← collect (fun item => d ← encode (snd item); mret (fst item, d))
                        items;
      mret (Object members)
  | PyObject _ => Raised TypeError
  end.

(** What [open(filename, 'w')] raises, if anything: the empty name is never
    a file; otherwise the machine decides. *)
Definition open_refused (disk : FileSystem) (filename : string) : option exn :=
  if String.eqb filename "" then Some FileNotFoundError
  else refused disk filename.

(** [open(filename, 'w')] creates or truncates the file, or raises and
    touches nothing. *)
Definition open_w (filename : string) : Eff FileSystem unit :=
  disk ← get;
  match open_refused disk filename with
  | Some e => raise e
  | None => modify (<[filename := Unfinished]>)
  end.

(** [json.dump(obj, f, indent=indent)] on the file just opened: the text is
    complete once the encoder has gone through the whole object. *)
Definition dump (obj : value) (filename : string) (indent : Z)
    : Eff FileSystem unit :=
  doc ← lift (encode obj);
  modify (<[filename := Text indent doc]>).

End json.

Module Serialization.
Import cv2 Py ultralytics ObjectDetection.

Definition save_to_json (self : ObjectDetection) (filename : string)
    (object_data : value) : Eff json.FileSystem unit :=
  json.open_w filename;;
  json.dump object_data filename 4.

(** An object list given by the label, distance and centre of each object:
    the dict [process_frame] builds. *)
Definition object_data_of (objects : list (string * float * (Z * Z))) : value :=
  PyDict [("objects",
           PyList (map (fun o => object_record o.1.1 o.1.2 o.2) objects))].


End Serialization.

(** ** Properties of the camera source *)

Module CameraProps.
Import cv2 Camera.

Ltac run :=
  unfold start, get_frame, stop, is_opened, set_resolution, set_fps, cap_set,
    when, cap_is_open, modify, get, raise, lift, mbind, eff_bind, mret,
    eff_ret in *;
  cbn in *.

(** A camera some hardware refuses to open, and one that is running with a
    frame, then a failed grab, in its queue. *)
Definition good_grab (_ : list (cap_prop * Z)) : option Frame :=
  Some (mkFrame [1; 2; 3] []).
Definition failed_grab (_ : list (cap_prop * Z)) : option Frame := None.
Definition dead_device (_ : Z) : VideoCapture := mkVideoCapture false [] [].
Definition live_device (_ : Z) : VideoCapture :=
  mkVideoCapture true [] [good_grab; failed_grab].
Definition running : Camera := snd (start live_device default).
Definition after_one_frame : Camera := snd (get_frame running).

Example running_is : running =
  mkCamera 0 640 480 60
    (Some (mkVideoCapture true
             [(CAP_PROP_FRAME_WIDTH, 640); (CAP_PROP_FRAME_HEIGHT, 480);
              (CAP_PROP_FPS, 60)]
             [good_grab; failed_grab])).
Proof. reflexivity. Qed.

Example start_dead :
  start dead_device default =
  (Raised (Exception "Error: Unable to open the camera with ID 0"),
   set_cap (Some (mkVideoCapture false [] [])) default).
Proof. reflexivity. Qed.

Example first_frame :
  fst (get_frame running) = Returned (Some (mkFrame [1; 2; 3] [])).
Proof. reflexivity. Qed.

(** C4. On every camera whose device is not open (never started, start
    failed, or released) [get_frame] raises the "Camera is not opened"
    exception and leaves the camera as it was; on an open device whose read
    reports failure it raises the "Failed to capture frame" exception.  Both
    are the specification's CaptureError, and no frame is returned. *)
Theorem get_frame_fails_with_CaptureError (c : Camera) :
  (cap_is_open c = false ->
     get_frame c = (Raised not_opened, c) /\ CaptureError not_opened) /\
  (forall d fr d',
     cap c = Some d -> isOpened d = true -> read d = ((false, fr), d') ->
     get_frame c = (Raised capture_failed, set_cap (Some d') c) /\
     CaptureError capture_failed).
Proof.
  split.
  - intros Hc. split; [|by left]. run.
    destruct (cap c) as [d|]; [|done]. cbn in Hc. by rewrite Hc.
  - intros d fr d' Hcap Hop Hrd. split; [|by right]. run.
    rewrite Hcap. unfold isOpened in *. rewrite Hop. cbn. by rewrite Hrd.
Qed.

Lemma get_frame_fails_with_CaptureError_witness :
  (get_frame default = (Raised not_opened, default) /\
   get_frame (snd (start dead_device default))
     = (Raised not_opened, snd (start dead_device default)) /\
   get_frame (snd (stop running)) = (Raised not_opened, snd (stop running))) /\
  fst (get_frame after_one_frame) = Raised capture_failed.
Proof.
  split; [split; [|split]|].
  - apply (get_frame_fails_with_CaptureError default). reflexivity.
  - apply (get_frame_fails_with_CaptureError (snd (start dead_device default))).
    reflexivity.
  - apply (get_frame_fails_with_CaptureError (snd (stop running))).
    reflexivity.
  - pose proof (proj2 (get_frame_fails_with_CaptureError after_one_frame)
                  (mkVideoCapture true
                     [(CAP_PROP_FRAME_WIDTH, 640); (CAP_PROP_FRAME_HEIGHT, 480);
                      (CAP_PROP_FPS, 60)] [failed_grab])
                  None
                  (mkVideoCapture true
                     [(CAP_PROP_FRAME_WIDTH, 640); (CAP_PROP_FRAME_HEIGHT, 480);
                      (CAP_PROP_FPS, 60)] [])
                  eq_refl eq_refl eq_refl) as [H _].
    rewrite H. reflexivity.
Defined.

(** C5. [stop] never raises, whatever the state of the camera; after it the
    device (if there is one) is released and [is_opened] answers False;
    a second [stop] changes nothing.  The configuration is untouched. *)
Theorem stop_idempotent (c : Camera) :
  fst (stop c) = Returned tt /\
  stop (snd (stop c)) = (Returned tt, snd (stop c)) /\
  is_opened (snd (stop c)) = (Returned false, snd (stop c)) /\
  cap (snd (stop c)) = release <$> cap c /\
  (camera_id (snd (stop c)), width (snd (stop c)), height (snd (stop c)),
   fps (snd (stop c))) = (camera_id c, width c, height c, fps c).
Proof.
  run. destruct c as [i w h f [[[] rq pd]|]]; cbn; repeat split.
Qed.


(** C10. [is_opened] always returns and changes nothing: False while no
    capture handle exists (before any [start]), the handle's own open state
    otherwise; after a [start] that did not raise it is that of the device
    just opened, which is True. *)
Theorem is_opened_total (c : Camera) :
  is_opened c
    = (Returned (match cap c with Some d => isOpened d | None => false end), c)
  /\ (forall i w h f, fst (is_opened (__init__ i w h f)) = Returned false)
  /\ (forall hw, fst (start hw c) = Returned tt ->
        cap (snd (start hw c))
          = Some (set CAP_PROP_FPS (fps c)
                   (set CAP_PROP_FRAME_HEIGHT (height c)
                     (set CAP_PROP_FRAME_WIDTH (width c) (hw (camera_id c)))))
        /\ fst (is_opened (snd (start hw c)))
             = Returned (isOpened (hw (camera_id c)))
        /\ isOpened (hw (camera_id c)) = true).
Proof.
  split; [|split].
  - run. by destruct (cap c).
  - done.
  - intros hw. run. unfold isOpened.
    destruct (opened (hw (camera_id c))) eqn:E; cbn; [|discriminate].
    intros _. by rewrite E.
Qed.

Lemma is_opened_total_witness :
  fst (is_opened (snd (start live_device default))) = Returned true.
Proof.
  destruct (proj2 (proj2 (is_opened_total default)) live_device eq_refl)
    as (_ & H & _).
  exact H.
Defined.

End CameraProps.

(** ** Properties of the distance and centre computations *)

Module GeometryProps.
Import cv2 Py ultralytics ObjectDetection.

(** The calibration of the specification's example: focal lengths of 800
    pixels, a person of 1.7 m; the detector finds nothing. *)
Definition example_matrix : list (list float) :=
  [[800; 0; 320]; [0; 800; 240]; [0; 0; 1]]%float.
Definition example_detector : ObjectDetection :=
  mkObjectDetection (fun _ => []) example_matrix 1.7%float.

Lemma float_of_int_in_range (z : Z) :
  Z.abs z < float_overflow -> float_of_int z = Returned (nearest_float z).
Proof.
  intros Hz. unfold float_of_int.
  by destruct (Z.ltb_spec (Z.abs z) float_overflow); [|lia].
Qed.

Lemma float_of_int_too_large (z : Z) :
  float_overflow <= Z.abs z -> float_of_int z = Raised OverflowError.
Proof.
  intros Hz. unfold float_of_int.
  by destruct (Z.ltb_spec (Z.abs z) float_overflow); [lia|].
Qed.

Lemma float_of_int_0 : float_of_int 0 = Returned 0%float.
Proof. reflexivity. Qed.

Lemma calculate_distance_unfold (self : ObjectDetection)
    (x_min y_min x_max y_max : Z) :
  calculate_distance self [x_min; y_min; x_max; y_max]
  = (focal_length ← index2 (camera_matrix self) 1 1;
     height ← float_of_int (y_max - y_min);
     mret ((object_height self * focal_length) / height)%float).
Proof. reflexivity. Qed.

(** Dividing by the float zero gives an infinity or nan, whatever the
    numerator. *)
Lemma div_by_zero_not_finite (x : float) :
  (is_infinity (x / 0) || is_nan (x / 0))%float = true.
Proof.
  rewrite <- (SF2Prim_Prim2SF (x / 0)), div_spec.
  change (Prim2SF 0) with (S754_zero false).
  destruct (Prim2SF x) as [[]|[]| |[] m e]; reflexivity.
Qed.

(** C1. For a box with [y_max > y_min] and a camera matrix with a (1,1)
    entry [focal_length], [calculate_distance] returns
    [(object_height * focal_length) / (y_max - y_min)], the binary64
    product and quotient with the pixel height converted to the nearest
    float, for every pixel height a float can hold (below
    [2^1024 - 2^970]); a height beyond that cannot be converted and the
    division raises OverflowError.  With entry 800, height 1.7 and box
    (100, 50, 300, 250) the result is 6.8. *)
Theorem calculate_distance_formula :
  (forall self x_min y_min x_max y_max focal_length,
     index2 (camera_matrix self) 1 1 = Returned focal_length ->
     y_max > y_min ->
     y_max - y_min < float_overflow ->
     calculate_distance self [x_min; y_min; x_max; y_max]
       = Returned ((object_height self * focal_length)
                     / nearest_float (y_max - y_min))%float) /\
  (forall self x_min y_min x_max y_max focal_length,
     index2 (camera_matrix self) 1 1 = Returned focal_length ->
     float_overflow <= y_max - y_min ->
     calculate_distance self [x_min; y_min; x_max; y_max]
       = Raised OverflowError) /\
  (forall self,
     index2 (camera_matrix self) 1 1 = Returned 800%float ->
     object_height self = 1.7%float ->
     calculate_distance self [100; 50; 300; 250] = Returned 6.8%float).
Proof.
  split_and!.
  - intros self x_min y_min x_max y_max f Hf Hpos Hfit.
    rewrite calculate_distance_unfold, Hf, float_of_int_in_range by lia.
    reflexivity.
  - intros self x_min y_min x_max y_max f Hf Hbig.
    rewrite calculate_distance_unfold, Hf, float_of_int_too_large by lia.
    reflexivity.
  - intros self Hf Hh. rewrite calculate_distance_unfold, Hf, Hh. reflexivity.
Qed.

Lemma calculate_distance_formula_witness :
  calculate_distance example_detector [100; 50; 300; 250]
    = Returned ((1.7 * 800) / nearest_float (250 - 50))%float /\
  calculate_distance example_detector [0; 0; 0; 2 ^ 1024] = Raised OverflowError /\
  calculate_distance example_detector [100; 50; 300; 250] = Returned 6.8%float.
Proof.
  destruct calculate_distance_formula as (Hformula & Hoverflow & Hexample).
  split_and!.
  - apply (Hformula example_detector 100 50 300 250);
      [reflexivity | lia | vm_compute; reflexivity].
  - apply (Hoverflow example_detector 0 0 0 (2 ^ 1024) 800%float);
      [reflexivity | vm_compute; discriminate].
  - apply (Hexample example_detector); reflexivity.
Defined.

(** C2. For every box [get_center] returns
    [(x_min + (x_max - x_min) // 2, y_min + (y_max - y_min) // 2)] with
    floor division: each coordinate is the floor of the exact midpoint,
    which for a box with [x_min <= x_max] (resp. [y_min <= y_max]) lies
    between [x_min] and the midpoint, that is, rounds toward [x_min]. *)
Theorem get_center_formula (x_min y_min x_max y_max : Z) :
  let center_x := x_min + (x_max - x_min) `div` 2 in
  let center_y := y_min + (y_max - y_min) `div` 2 in
  get_center [x_min; y_min; x_max; y_max] = Returned (center_x, center_y) /\
  (2 * center_x <= x_min + x_max < 2 * center_x + 2) /\
  (2 * center_y <= y_min + y_max < 2 * center_y + 2) /\
  (x_min <= x_max -> x_min <= center_x <= x_max) /\
  (y_min <= y_max -> y_min <= center_y <= y_max).
Proof.
  cbn zeta. split; [reflexivity|].
  pose proof (Z.div_mod (x_max - x_min) 2 ltac:(lia)).
  pose proof (Z.mod_pos_bound (x_max - x_min) 2 ltac:(lia)).
  pose proof (Z.div_mod (y_max - y_min) 2 ltac:(lia)).
  pose proof (Z.mod_pos_bound (y_max - y_min) 2 ltac:(lia)).
  lia.
Qed.

Lemma get_center_formula_witness :
  get_center [100; 50; 300; 250] = Returned (200, 150) /\
  get_center [100; 50; 301; 251] = Returned (200, 150) /\
  100 <= 100 + (301 - 100) `div` 2 <= 301.
Proof.
  split; [|split].
  - apply (get_center_formula 100 50 300 250).
  - apply (get_center_formula 100 50 301 251).
  - apply (get_center_formula 100 50 301 251). lia.
Defined.

(** C3, as the claim states it, fails: on a box of height zero the example
    detector returns the float infinity and raises nothing. *)
Lemma calculate_distance_zero_height_returns :
  calculate_distance example_detector [100; 50; 300; 50] = Returned infinity /\
  ~ (forall self x_min y x_max,
       raised (calculate_distance self [x_min; y; x_max; y]) = true).
Proof.
  split; [reflexivity|].
  intros H. specialize (H example_detector 100 50 300). discriminate H.
Qed.

(** C3, amended. [calculate_distance] has no guard on the pixel height: on
    a box with [y_max = y_min] it raises nothing on account of the height
    and returns the binary64 quotient of [object_height * focal_length] by
    zero, which is an infinity or nan. *)
Theorem calculate_distance_zero_height (self : ObjectDetection)
    (x_min y x_max : Z) (focal_length : float) :
  index2 (camera_matrix self) 1 1 = Returned focal_length ->
  let distance := ((object_height self * focal_length) / 0)%float in
  calculate_distance self [x_min; y; x_max; y] = Returned distance /\
  (is_infinity distance || is_nan distance)%float = true.
Proof.
  intros Hf distance. split; [|apply div_by_zero_not_finite].
  by rewrite calculate_distance_unfold, Hf, Z.sub_diag, float_of_int_0.
Qed.

Lemma calculate_distance_zero_height_witness :
  calculate_distance example_detector [100; 50; 300; 50]
    = Returned ((1.7 * 800) / 0)%float /\
  (is_infinity ((1.7 * 800) / 0) || is_nan ((1.7 * 800) / 0))%float = true.
Proof.
  apply (calculate_distance_zero_height example_detector 100 50 300 800%float).
  reflexivity.
Defined.

End GeometryProps.

(** ** Properties of detection and frame processing *)

Module FrameProps.
Import cv2 Py ultralytics ObjectDetection Serialization.

(** The detector's output, flattened in the order the two loops of
    [detect_objects] visit it: every box with the result it belongs to. *)
Definition raw_detections (results : list Result) : list (Result * Box) :=
  flat_map (fun result => map (pair result) (xyxy (boxes result))) results.

Lemma collect_app {A B} (f : A -> outcome B) (l1 l2 : list A) :
  collect f (l1 ++ l2)
  = (ys1 ← collect f l1; ys2 ← collect f l2; mret (ys1 ++ ys2)).
Proof.
  induction l1 as [|x l1 IH]; cbn.
  - unfold mbind, outcome_bind. by destruct (collect f l2).
  - unfold mbind, outcome_bind, mret, outcome_ret in *. destruct (f x); [|done].
    rewrite IH. destruct (collect f l1); [|done]. by destruct (collect f l2).
Qed.

Lemma collect_map {A B C} (f : B -> outcome C) (g : A -> B) (l : list A) :
  collect f (map g l) = collect (fun x => f (g x)) l.
Proof. induction l as [|x l IH]; cbn; [done|]. by rewrite IH. Qed.

Lemma collect_Forall2 {A B} (f : A -> outcome B) (l : list A) (ys : list B) :
  collect f l = Returned ys <-> Forall2 (fun x y => f x = Returned y) l ys.
Proof.
  revert ys. induction l as [|x l IH]; intros ys; cbn.
  - split.
    + intros [= <-]. constructor.
    + intros H. by inversion H.
  - unfold mbind, outcome_bind, mret, outcome_ret. split.
    + destruct (f x) as [y|] eqn:Ey; [|done].
      destruct (collect f l) as [ys'|] eqn:Eys; [|done].
      intros [= <-]. constructor; [done|]. by apply IH.
    + intros H. inversion H as [|? y ? ys' Hy Hrest]; subst.
      rewrite Hy. apply IH in Hrest. by rewrite Hrest.
Qed.

Lemma collect_total {A B} (f : A -> outcome B) (l : list A) :
  Forall (fun x => raised (f x) = false) l -> exists ys, collect f l = Returned ys.
Proof.
  induction 1 as [|x l Hx _ [ys IH]]; cbn; [by eexists|].
  unfold mbind, outcome_bind, mret, outcome_ret.
  destruct (f x); [|done]. rewrite IH. by eexists.
Qed.

(** What one box contributes does not depend on the list built so far. *)
Lemma detect_box_acc (r : Result) (b : Box) (acc : list Detection) :
  detect_box r b acc
  = (ds ← detect_box r b []; mret (acc ++ ds)).
Proof.
  unfold detect_box, mbind, outcome_bind, mret, outcome_ret.
  destruct (unpack4_ints (coordinates b)) as [[[[x1 y1] x2] y2]|]; [|done].
  destruct (getattr (cls b)) as [box_cls|]; [|done]. cbn.
  destruct (index box_cls 0); [|done].
  destruct (int_of_float _); [|done].
  by destruct (getitem _ _).
Qed.

Lemma for_each_boxes (r : Result) (bs : list Box) (acc : list Detection) :
  for_each (detect_box r) bs acc
  = (dss ← collect (fun b => detect_box r b []) bs; mret (acc ++ concat dss)).
Proof.
  revert acc. induction bs as [|b bs IH]; intros acc; cbn [for_each collect].
  - cbn. by rewrite app_nil_r.
  - rewrite detect_box_acc.
    unfold mbind, outcome_bind, mret, outcome_ret in *.
    destruct (detect_box r b []) as [ds|]; [|done].
    rewrite IH. destruct (collect _ bs); [|done].
    by rewrite <- app_assoc.
Qed.

Lemma for_each_results (rs : list Result) (acc : list Detection) :
  for_each (fun r => for_each (detect_box r) (xyxy (boxes r))) rs acc
  = (dss ← collect (fun rb => detect_box rb.1 rb.2 []) (raw_detections rs);
     mret (acc ++ concat dss)).
Proof.
  revert acc. induction rs as [|r rs IH]; intros acc; cbn [for_each].
  - cbn. by rewrite app_nil_r.
  - change (raw_detections (r :: rs))
      with (map (pair r) (xyxy (boxes r)) ++ raw_detections rs).
    rewrite for_each_boxes, collect_app, collect_map. cbn [fst snd].
    unfold mbind, outcome_bind, mret, outcome_ret in *.
    destruct (collect _ (xyxy (boxes r))) as [dss1|]; [|done].
    rewrite IH. destruct (collect _ (raw_detections rs)) as [dss2|]; [|done].
    by rewrite concat_app, app_assoc.
Qed.

(** [detect_objects] returns one detection per box, in the detector's
    order, or raises the first exception a box runs into. *)
Lemma detect_objects_spec (self : ObjectDetection) (frame : Frame) :
  detect_objects self frame
  = (dss ← collect (fun rb => detect_box rb.1 rb.2 [])
                   (raw_detections (model self frame));
     mret (concat dss)).
Proof. unfold detect_objects. by rewrite for_each_results. Qed.

(** What [int()] gives for a binary64 is below [2^1024] in magnitude. *)
Definition in_float_range (z : Z) : Prop := Z.abs z < 2 ^ 1024.

Lemma digits2_pos_size (m : positive) : digits2_pos m = Pos.size m.
Proof. induction m; cbn; congruence. Qed.

Lemma mantissa_bound (m : positive) (e : Z) :
  bounded prec emax m e = true -> Z.pos m < 2 ^ 53 /\ e <= 971.
Proof.
  unfold bounded, canonical_mantissa, fexp, emin, prec, emax.
  intros H. apply andb_prop in H as [Hc He].
  apply Z.eqb_eq in Hc. apply Z.leb_le in He.
  rewrite digits2_pos_size in Hc.
  split; [|lia].
  assert (Z.pos (Pos.size m) <= 53) as Hd by lia.
  pose proof (Pos.size_gt m) as Hm.
  apply Pos2Z.pos_lt_pos in Hm. rewrite Pos2Z.inj_pow in Hm.
  eapply Z.lt_le_trans; [exact Hm|].
  apply Z.pow_le_mono_r; lia.
Qed.

Lemma shiftl_bound (m : positive) (e : Z) :
  Z.pos m < 2 ^ 53 -> e <= 971 -> 0 <= Z.shiftl (Z.pos m) e < 2 ^ 1024.
Proof.
  intros Hm He. destruct (Z.le_gt_cases 0 e).
  - rewrite Z.shiftl_mul_pow2 by lia. split; [lia|].
    replace (2 ^ 1024) with (2 ^ 53 * 2 ^ 971) by (rewrite <- Z.pow_add_r; lia).
    assert (2 ^ e <= 2 ^ 971) by (apply Z.pow_le_mono_r; lia).
    assert (0 < 2 ^ e) by (apply Z.pow_pos_nonneg; lia).
    nia.
  - rewrite Z.shiftl_div_pow2 by lia.
    assert (0 < 2 ^ (- e)) by (apply Z.pow_pos_nonneg; lia).
    split; [apply Z.div_pos; lia|].
    assert (Z.pos m / 2 ^ (- e) <= Z.pos m).
    { apply Z.div_le_upper_bound; [lia|]. nia. }
    assert (2 ^ 53 < 2 ^ 1024) by (apply Z.pow_lt_mono_r; lia). lia.
Qed.

Lemma int_of_float_bound (x : float) (z : Z) :
  int_of_float x = Returned z -> in_float_range z.
Proof.
  unfold int_of_float, in_float_range. pose proof (Prim2SF_valid x) as Hv.
  assert (0 < 2 ^ 1024) by (apply Z.pow_pos_nonneg; lia).
  destruct (Prim2SF x) as [s|s| |s m e]; try done.
  - intros [= <-]. cbn. lia.
  - cbn in Hv. apply mantissa_bound in Hv as [Hm He].
    pose proof (shiftl_bound m e Hm He). intros [= <-]. destruct s; lia.
Qed.

Lemma unpack4_ints_bound (seq : list float) (a b c d : Z) :
  unpack4_ints seq = Returned (a, b, c, d) ->
  in_float_range a /\ in_float_range b /\ in_float_range c /\ in_float_range d.
Proof.
  unfold unpack4_ints.
  destruct seq as [|x1 [|x2 [|x3 [|x4 [|x5 rest]]]]]; cbn;
    unfold mbind, outcome_bind, mret, outcome_ret; try done;
    destruct (int_of_float x1) eqn:E1; try done;
    destruct (int_of_float x2) eqn:E2; try done;
    destruct (int_of_float x3) eqn:E3; try done;
    destruct (int_of_float x4) eqn:E4; try done; cbn.
  - intros [= <- <- <- <-]. split_and!; by eapply int_of_float_bound.
  - by destruct (int_of_float x5).
Qed.

(** A detection whose box is four integers a binary64 can hold. *)
Definition well_formed (det : Detection) : Prop :=
  exists x_min y_min x_max y_max,
    bounding_box det = [x_min; y_min; x_max; y_max] /\
    in_float_range x_min /\ in_float_range y_min /\
    in_float_range x_max /\ in_float_range y_max.

Lemma detect_box_well_formed (r : Result) (b : Box) (ds : list Detection) :
  detect_box r b [] = Returned ds -> Forall well_formed ds.
Proof.
  unfold detect_box, mbind, outcome_bind, mret, outcome_ret.
  destruct (unpack4_ints (coordinates b)) as [[[[x1 y1] x2] y2]|] eqn:Eu; [|done].
  apply unpack4_ints_bound in Eu as (? & ? & ? & ?).
  destruct (getattr (cls b)) as [box_cls|]; [|done]. cbn.
  destruct (index box_cls 0); [|done].
  destruct (int_of_float _); [|done].
  destruct (getitem _ _); [|done].
  intros [= <-]. constructor; [|constructor].
  by exists x1, y1, x2, y2.
Qed.

Lemma detect_objects_bounded (self : ObjectDetection) (frame : Frame)
    (dets : list Detection) :
  detect_objects self frame = Returned dets -> Forall well_formed dets.
Proof.
  rewrite detect_objects_spec. unfold mbind, outcome_bind, mret, outcome_ret.
  destruct (collect _ _) as [dss|] eqn:E; [|done]. intros [= <-].
  apply collect_Forall2 in E.
  induction E as [|rb ds raws dss Hd _ IH]; cbn; [constructor|].
  apply Forall_app. split; [|done]. by eapply detect_box_well_formed.
Qed.

(** What [process_frame] appends for one detection. *)
Definition record_of (self : ObjectDetection) (det : Detection)
    (record : value) : Prop :=
  exists distance center,
    calculate_distance self (bounding_box det) = Returned distance /\
    get_center (bounding_box det) = Returned center /\
    record = object_record (class det) distance center.

(** The two drawing calls [draw_bounding_box] makes for a detection: the
    green box, then the label ten pixels above its top-left corner. *)
Definition drawings_of (det : Detection) : list drawing :=
  match bounding_box det with
  | [x_min; y_min; x_max; y_max] =>
      [rectangle_call (x_min, y_min) (x_max, y_max) (0, 255, 0) 2;
       putText_call (class det) (x_min, y_min - 10) FONT_HERSHEY_SIMPLEX
                    0.9%float (0, 255, 0) 2]
  | _ => []
  end.

Lemma draw_bounding_box_returns (bounding_box : list Z) (obj_class : string)
    (frame frame' : Frame) :
  draw_bounding_box bounding_box obj_class frame = (Returned tt, frame') ->
  frame' = mkFrame (captured frame)
             (overlay frame ++ drawings_of (mkDetection obj_class bounding_box)).
Proof.
  unfold draw_bounding_box, drawings_of, rectangle, putText, lift, modify,
    raise, mbind, eff_bind.
  destruct bounding_box as [|x1 [|y1 [|x2 [|y2 [|]]]]]; try done. cbn.
  destruct (is_point (x1, y1) && is_point (x2, y2)); [|done]. cbn.
  destruct (is_point (x1, y1 - 10)); [|done]. cbn.
  intros [= <-]. unfold draw. cbn. by rewrite <- app_assoc.
Qed.

Lemma process_object_returns (self : ObjectDetection) (obj : Detection)
    (objects out : list value) (frame frame' : Frame) :
  process_object self obj objects frame = (Returned out, frame') ->
  (exists record, out = objects ++ [record] /\ record_of self obj record) /\
  frame' = mkFrame (captured frame) (overlay frame ++ drawings_of obj).
Proof.
  unfold process_object, lift, mbind, eff_bind, mret, eff_ret.
  destruct (calculate_distance self (bounding_box obj)) as [distance|] eqn:Ed;
    [|done].
  destruct (get_center (bounding_box obj)) as [center|] eqn:Ec; [|done].
  destruct (draw_bounding_box (bounding_box obj) (class obj) frame)
    as [[[]|] frame1] eqn:Edraw; [|done].
  intros [= <- <-]. apply draw_bounding_box_returns in Edraw. split.
  - eexists. split; [done|]. by exists distance, center.
  - by destruct obj.
Qed.

Lemma process_objects_returns (self : ObjectDetection) (dets : list Detection) :
  forall (objects out : list value) (frame frame' : Frame),
    process_objects self dets objects frame = (Returned out, frame') ->
    (exists records, out = objects ++ records /\
                     Forall2 (record_of self) dets records) /\
    frame' = mkFrame (captured frame) (overlay frame ++ flat_map drawings_of dets).
Proof.
  induction dets as [|det dets IH]; intros objects out frame frame';
    cbn [process_objects flat_map].
  - intros [= <- <-]. split.
    + exists []. split; [by rewrite app_nil_r | constructor].
    + destruct frame. cbn. by rewrite app_nil_r.
  - unfold mbind, eff_bind.
    destruct (process_object self det objects frame) as [[objects1|] frame1]
      eqn:E1; [|done].
    intros E2. apply process_object_returns in E1 as [(record & -> & Hr) ->].
    apply IH in E2 as [(records & -> & Hrs) ->]. split.
    + exists (record :: records). split; [by rewrite <- app_assoc|].
      by constructor.
    + cbn. by rewrite app_assoc.
Qed.

Lemma process_frame_unfold (self : ObjectDetection) (frame : Frame) :
  process_frame self frame
  = match detect_objects self frame with
    | Returned detected_objects =>
        match process_objects self detected_objects [] frame with
        | (Returned objects, frame') =>
            (Returned (PyDict [("objects", PyList objects)]), frame')
        | (Raised e, frame') => (Raised e, frame')
        end
    | Raised e => (Raised e, frame)
    end.
Proof.
  unfold process_frame, mbind, eff_bind, get, lift, mret, eff_ret.
  destruct (detect_objects self frame); [|done].
  by destruct (process_objects _ _ _ _) as [[] ?].
Qed.

(** A frame some detector answers with three boxes in two results. *)
Definition coco : gmap Z string := <[0 := "person"]> (<[2 := "car"]> ∅).
Definition street_results : list Result :=
  [mkResult (mkBoxes [mkBox [100.2; 50.9; 300.5; 250.1]%float (Some [0%float]);
                      mkBox [10; 20; 31; 20]%float (Some [2%float])]) coco;
   mkResult (mkBoxes [mkBox [400; 100; 420; 140]%float (Some [0%float])]) coco].
Definition street_detector : ObjectDetection :=
  mkObjectDetection (fun _ => street_results) GeometryProps.example_matrix
                    1.7%float.
Definition blank : Frame := mkFrame [] [].

Example street_detections :
  detect_objects street_detector blank
  = Returned [mkDetection "person" [100; 50; 300; 250];
              mkDetection "car" [10; 20; 31; 20];
              mkDetection "person" [400; 100; 420; 140]].
Proof. vm_compute. reflexivity. Qed.

(** A row that is the four coordinates and nothing more stops the loop at
    its first box. *)
Example bare_row :
  detect_objects
    (mkObjectDetection
       (fun _ => [mkResult (mkBoxes [mkBox [100; 50; 300; 250]%float None]) coco])
       GeometryProps.example_matrix 1.7%float)
    blank
  = Raised AttributeError.
Proof. vm_compute. reflexivity. Qed.

Example street_objects :
  fst (process_frame street_detector blank)
  = Returned (object_data_of [("person", 6.8%float, (200, 150));
                              ("car", infinity, (20, 20));
                              ("person", 34%float, (410, 120))]).
Proof. vm_compute. reflexivity. Qed.

(** C7. A detector whose rows are bare coordinate rows, without the [cls]
    attribute [detect_objects] asks of them: as soon as it returns one box
    whose coordinates convert, [detect_objects] raises AttributeError at that
    first box, [process_frame] raises with it and produces no record, and the
    frame is left as it was. *)
Theorem process_frame_bare_rows (self : ObjectDetection) (frame : Frame)
    (r : Result) (b : Box) (rest : list (Result * Box)) :
  raw_detections (model self frame) = (r, b) :: rest ->
  cls b = None ->
  raised (unpack4_ints (coordinates b)) = false ->
  detect_objects self frame = Raised AttributeError /\
  process_frame self frame = (Raised AttributeError, frame).
Proof.
  intros Hraws Hcls Hcoords.
  assert (detect_objects self frame = Raised AttributeError) as Hd.
  { rewrite detect_objects_spec, Hraws. cbn [collect fst snd].
    unfold detect_box, mbind, outcome_bind.
    destruct (unpack4_ints (coordinates b)) as [[[[x1 y1] x2] y2]|]; [|done].
    by rewrite Hcls. }
  split; [done|]. by rewrite process_frame_unfold, Hd.
Qed.

(** The street results as the detector hands them over: rows of four
    coordinates and nothing more. *)
Definition bare_results : list Result :=
  [mkResult (mkBoxes [mkBox [100.2; 50.9; 300.5; 250.1]%float None;
                      mkBox [10; 20; 31; 20]%float None]) coco;
   mkResult (mkBoxes [mkBox [400; 100; 420; 140]%float None]) coco].
Definition bare_detector : ObjectDetection :=
  mkObjectDetection (fun _ => bare_results) GeometryProps.example_matrix
                    1.7%float.

Lemma process_frame_bare_rows_witness :
  detect_objects bare_detector blank = Raised AttributeError /\
  process_frame bare_detector blank = (Raised AttributeError, blank).
Proof.
  eapply (process_frame_bare_rows bare_detector blank).
  - reflexivity.
  - reflexivity.
  - reflexivity.
Defined.



End FrameProps.

(** ** Properties of the serialized object list *)

Module SerializationProps.
Import cv2 Py ultralytics ObjectDetection Serialization FrameProps.







Lemma insert_twice (disk : json.FileSystem) (name : string) (f g : json.file) :
  <[name := g]> (<[name := f]> disk) = <[name := g]> disk.
Proof.
  destruct disk as [held refusals].
  change (json.mkFileSystem (<[name := g]> (<[name := f]> held)) refusals
          = json.mkFileSystem (<[name := g]> held) refusals).
  by rewrite insert_insert_eq.
Qed.


Section value_induction.
  Variable P : value -> Prop.
  Hypothesis P_none : P PyNone.
  Hypothesis P_bool : forall b, P (PyBool b).
  Hypothesis P_int : forall z, P (PyInt z).
  Hypothesis P_float : forall x, P (PyFloat x).
  Hypothesis P_str : forall s, P (PyStr s).
  Hypothesis P_tuple : forall items, Forall P items -> P (PyTuple items).
  Hypothesis P_list : forall items, Forall P items -> P (PyList items).
  Hypothesis P_dict :
    forall items, Forall (fun item => P (snd item)) items -> P (PyDict items).
  Hypothesis P_object : forall name, P (PyObject name).

Fixpoint value_nested_ind (v : value) : P v :=
  let all :=
    fix all (items : list value) : Forall P items :=
      match items with
      | [] => List.Forall_nil P
      | x :: rest => List.Forall_cons P x rest (value_nested_ind x) (all rest)
      end in
  match v with
  | PyNone => P_none
  | PyBool b => P_bool b
  | PyInt z => P_int z
  | PyFloat x => P_float x
  | PyStr s => P_str s
  | PyTuple items => P_tuple items (all items)
  | PyList items => P_list items (all items)
  | PyDict items =>
      P_dict items
        ((fix all_values (items : list (string * value))
            : Forall (fun item => P (snd item)) items :=
            match items with
            | [] => List.Forall_nil _
            | item :: rest =>
                List.Forall_cons (fun item => P (snd item)) item rest
                                 (value_nested_ind (snd item)) (all_values rest)
            end) items)
  | PyObject name => P_object name
  end.
End value_induction.




End SerializationProps.

(** ** More on the camera source: start, the life cycle, what the setters
    leave alone *)

Module CameraLifecycle.
Import cv2 Camera CameraProps.

Definition configuration (c : Camera) : Z * Z * Z * Z :=
  (camera_id c, width c, height c, fps c).

(** X1. When the hardware hands back a handle that is not open, [start]
    raises the "Unable to open" exception naming the camera id, sends the
    handle nothing and keeps it in [cap] (which is then no longer None);
    the camera reports closed, [get_frame] raises and [stop] does nothing. *)
Theorem start_unavailable (hw : Z -> VideoCapture) (c : Camera) :
  isOpened (hw (camera_id c)) = false ->
  let c' := set_cap (Some (hw (camera_id c))) c in
  start hw c = (Raised (unable_to_open (camera_id c)), c') /\
  is_opened c' = (Returned false, c') /\
  get_frame c' = (Raised not_opened, c') /\
  stop c' = (Returned tt, c').
Proof.
  intros Hclosed. run. unfold isOpened in *. by rewrite Hclosed.
Qed.

Lemma start_unavailable_witness :
  start dead_device default
  = (Raised (Exception "Error: Unable to open the camera with ID 0"),
     set_cap (Some (dead_device 0)) default) /\
  get_frame (set_cap (Some (dead_device 0)) default)
  = (Raised not_opened, set_cap (Some (dead_device 0)) default).
Proof.
  destruct (start_unavailable dead_device default eq_refl) as (H1 & _ & H2 & _).
  split; [exact H1 | exact H2].
Defined.









(** X3. [get_frame] returns exactly when the handle exists, is open and its
    read reports success; it then returns the frame read, which is never
    None, and the only change to the camera is that the device has moved
    on by that read. *)
Theorem get_frame_returns_iff (c c' : Camera) (frame : option Frame) :
  (get_frame c = (Returned frame, c') <->
   exists d d',
     cap c = Some d /\ isOpened d = true /\ read d = ((true, frame), d') /\
     c' = set_cap (Some d') c) /\
  (get_frame c = (Returned frame, c') -> exists f, frame = Some f).
Proof.
  assert (get_frame c = (Returned frame, c') ->
          exists d d',
            cap c = Some d /\ isOpened d = true /\ read d = ((true, frame), d') /\
            c' = set_cap (Some d') c) as Hfwd.
  { run. destruct (cap c) as [d|] eqn:Ec; [|done].
    destruct (isOpened d) eqn:Eo; [|done]. cbn.
    destruct (read d) as [[[] fr] d'] eqn:Er; [|done]. cbn.
    intros [= <- <-]. by exists d, d'. }
  split; [split; [exact Hfwd|] |].
  - intros (d & d' & Ec & Eo & Er & ->). run. by rewrite Ec, Eo, Er.
  - intros (d & d' & _ & _ & Er & _)%Hfwd. unfold read in Er.
    destruct (opened d); [|done].
    destruct (pending d) as [|grab rest]; [done|].
    destruct (grab (requests d)) as [f|]; [|done].
    injection Er as <- _. by exists f.
Qed.

(** X4. Only the setters change the configuration: [start], [get_frame] and
    [is_opened] leave camera id, width, height and fps as they were, whether
    they return or raise. *)
Theorem configuration_kept (hw : Z -> VideoCapture) (c : Camera) :
  configuration (snd (start hw c)) = configuration c /\
  configuration (snd (get_frame c)) = configuration c /\
  configuration (snd (is_opened c)) = configuration c.
Proof.
  unfold configuration. run. unfold isOpened. split; [|split].
  - by destruct (opened (hw (camera_id c))).
  - destruct (cap c) as [d|]; [|done]. destruct (opened d); [|done]. cbn.
    by destruct (read d) as [[[] ?] ?].
  - by destruct (cap c).
Qed.



End CameraLifecycle.

(** ** More on detection: when a row converts, the shape of what comes back,
    the first error *)

Module DetectionProps.
Import cv2 Py ultralytics ObjectDetection Serialization FrameProps.

Lemma unpack4_ints_returns (seq : list float) (a b c d : Z) :
  unpack4_ints seq = Returned (a, b, c, d) <->
  exists x1 x2 x3 x4,
    seq = [x1; x2; x3; x4] /\
    int_of_float x1 = Returned a /\ int_of_float x2 = Returned b /\
    int_of_float x3 = Returned c /\ int_of_float x4 = Returned d.
Proof.
  unfold unpack4_ints. split.
  - destruct seq as [|x1 [|x2 [|x3 [|x4 [|x5 rest]]]]]; cbn;
      unfold mbind, outcome_bind, mret, outcome_ret;
      repeat (match goal with
              | |- context [int_of_float ?x] =>
                  destruct (int_of_float x) eqn:?; cbn
              end); try done.
    intros [= <- <- <- <-]. by exists x1, x2, x3, x4.
  - intros (x1 & x2 & x3 & x4 & -> & H1 & H2 & H3 & H4). cbn.
    by rewrite H1, H2, H3, H4.
Qed.

(** X7. [detect_objects] accepts a row exactly when it has four coordinates
    that [int()] converts, a [cls] attribute whose first entry [int()]
    converts, and that index is a key of the result's [names]; the detection
    appended is then the name found there with the four truncated
    coordinates, after everything detected before. *)
Theorem detect_box_returns_iff (r : Result) (b : Box)
    (detected out : list Detection) :
  detect_box r b detected = Returned out <->
  exists x1 y1 x2 y2 x_min y_min x_max y_max c rest k obj_class,
    coordinates b = [x1; y1; x2; y2] /\
    int_of_float x1 = Returned x_min /\ int_of_float y1 = Returned y_min /\
    int_of_float x2 = Returned x_max /\ int_of_float y2 = Returned y_max /\
    cls b = Some (c :: rest) /\ int_of_float c = Returned k /\
    names r !! k = Some obj_class /\
    out = detected ++ [mkDetection obj_class [x_min; y_min; x_max; y_max]].
Proof.
  unfold detect_box. split.
  - unfold mbind, outcome_bind, mret, outcome_ret.
    destruct (unpack4_ints (coordinates b)) as [[[[x_min y_min] x_max] y_max]|]
      eqn:Eu; [|done].
    apply unpack4_ints_returns in Eu as (x1 & y1 & x2 & y2 & Hc & ? & ? & ? & ?).
    destruct (cls b) as [[|c rest]|] eqn:Ecls; cbn; [done| |done].
    destruct (int_of_float c) as [k|] eqn:Ek; [|done].
    unfold getitem. destruct (names r !! k) as [obj_class|] eqn:En; [|done].
    intros [= <-].
    by exists x1, y1, x2, y2, x_min, y_min, x_max, y_max, c, rest, k, obj_class.
  - intros (x1 & y1 & x2 & y2 & x_min & y_min & x_max & y_max & c & rest & k
            & obj_class & Hc & H1 & H2 & H3 & H4 & Hcls & Hk & Hn & ->).
    assert (unpack4_ints (coordinates b) = Returned (x_min, y_min, x_max, y_max))
      as ->.
    { apply unpack4_ints_returns. by exists x1, y1, x2, y2. }
    rewrite Hcls. cbn. rewrite Hk. cbn. unfold getitem. by rewrite Hn.
Qed.

(** X8. Every detection [detect_objects] returns has a bounding box of
    exactly four integers and a class label taken from the names of one of
    the detector's results, and there are as many detections as the detector
    gave boxes; so [get_center] never raises on one of them. *)
Theorem detect_objects_well_formed (self : ObjectDetection) (frame : Frame)
    (dets : list Detection) :
  detect_objects self frame = Returned dets ->
  length dets = length (raw_detections (model self frame)) /\
  Forall (fun det =>
            (exists x_min y_min x_max y_max,
               bounding_box det = [x_min; y_min; x_max; y_max]) /\
            (exists result k,
               result ∈ model self frame /\
               names result !! k = Some (class det)) /\
            raised (get_center (bounding_box det)) = false)
         dets.
Proof.
  rewrite detect_objects_spec. unfold mbind, outcome_bind, mret, outcome_ret.
  destruct (collect _ _) as [dss|] eqn:E; [|done]. intros [= <-].
  apply collect_Forall2 in E.
  assert (forall rb, rb ∈ raw_detections (model self frame) ->
                     rb.1 ∈ model self frame) as Hin.
  { intros [r b]. unfold raw_detections. rewrite list_elem_of_In, in_flat_map.
    intros (r' & Hr' & Hb). apply in_map_iff in Hb as (b' & [= <- <-] & _).
    by apply list_elem_of_In. }
  revert E Hin. generalize (raw_detections (model self frame)) as raws.
  generalize (model self frame) as results. intros results raws E.
  induction E as [|rb ds raws dss Hd _ IH]; intros Hin; cbn; [by split|].
  apply (detect_box_returns_iff rb.1 rb.2 [] ds) in Hd
    as (x1 & y1 & x2 & y2 & x_min & y_min & x_max & y_max & c & rest & k
        & obj_class & _ & _ & _ & _ & _ & _ & _ & Hn & ->).
  destruct IH as [Hlen Hall].
  { intros rb' Hrb'. apply Hin. by right. }
  cbn. split; [by rewrite Hlen|]. constructor; [|done]. split_and!.
  - by exists x_min, y_min, x_max, y_max.
  - exists rb.1, k. split; [|done]. apply Hin. by left.
  - done.
Qed.

Lemma detect_objects_well_formed_witness :
  length [mkDetection "person" [100; 50; 300; 250];
          mkDetection "car" [10; 20; 31; 20];
          mkDetection "person" [400; 100; 420; 140]]
  = length (raw_detections (model street_detector blank)).
Proof.
  apply (detect_objects_well_formed street_detector blank).
  vm_compute. reflexivity.
Defined.

(** X9. The loops of [detect_objects] stop at the first row that does not
    convert: when the rows before it all convert, the exception of that row
    is the exception of [detect_objects], whatever follows, and no partial
    list is returned. *)
Theorem detect_objects_first_error (self : ObjectDetection) (frame : Frame)
    (before after : list (Result * Box)) (rb : Result * Box) (e : exn) :
  raw_detections (model self frame) = before ++ rb :: after ->
  Forall (fun rb' => raised (detect_box rb'.1 rb'.2 []) = false) before ->
  detect_box rb.1 rb.2 [] = Raised e ->
  detect_objects self frame = Raised e.
Proof.
  intros Hraws Hbefore He. rewrite detect_objects_spec, Hraws, collect_app.
  destruct (collect_total _ _ Hbefore) as [dss ->]. cbn [collect].
  unfold mbind, outcome_bind. by rewrite He.
Qed.

Lemma detect_objects_first_error_witness :
  detect_objects
    (mkObjectDetection
       (fun _ => [mkResult
                    (mkBoxes [mkBox [100; 50; 300; 250]%float (Some [0%float]);
                              mkBox [10; nan; 31; 20]%float (Some [2%float]);
                              mkBox [1; 2; 3]%float None]) coco])
       GeometryProps.example_matrix 1.7%float)
    blank
  = Raised ValueError.
Proof.
  eapply (detect_objects_first_error _ blank
            [(_, mkBox [100; 50; 300; 250]%float (Some [0%float]))]
            [(_, mkBox [1; 2; 3]%float None)]
            (_, mkBox [10; nan; 31; 20]%float (Some [2%float]))).
  - reflexivity.
  - repeat constructor.
  - reflexivity.
Defined.

Lemma index2_raises {A} (array : list (list A)) (i j : nat) (e : exn) :
  index2 array i j = Raised e -> e = IndexError.
Proof.
  unfold index2, index. destruct (array !! i) as [row|]; [|by intros [= <-]].
  destruct (row !! j); [done|by intros [= <-]].
Qed.

Lemma process_objects_no_focal (self : ObjectDetection) (e : exn)
    (det : Detection) (dets : list Detection) (objects : list value)
    (frame : Frame) :
  index2 (camera_matrix self) 1 1 = Raised e ->
  well_formed det ->
  process_objects self (det :: dets) objects frame = (Raised e, frame).
Proof.
  intros Hf (x1 & y1 & x2 & y2 & Hb & _). cbn [process_objects].
  unfold mbind at 1, eff_bind at 1.
  unfold process_object, lift, mbind at 1, eff_bind at 1.
  by rewrite Hb, GeometryProps.calculate_distance_unfold, Hf.
Qed.

(** X10. [process_frame] raises before anything is drawn in two cases: when
    [detect_objects] raises, with that exception; and when something was
    detected but the camera matrix has no (1,1) entry, with the IndexError
    met at the first detection.  In both the frame is left as it was. *)
Theorem process_frame_raises_early (self : ObjectDetection) (frame : Frame)
    (e : exn) :
  (detect_objects self frame = Raised e ->
   process_frame self frame = (Raised e, frame)) /\
  (forall det dets,
     detect_objects self frame = Returned (det :: dets) ->
     index2 (camera_matrix self) 1 1 = Raised e ->
     e = IndexError /\ process_frame self frame = (Raised IndexError, frame)).
Proof.
  split.
  - intros Hd. by rewrite process_frame_unfold, Hd.
  - intros det dets Hd Hf. pose proof (index2_raises _ _ _ _ Hf) as ->.
    split; [done|]. rewrite process_frame_unfold, Hd.
    apply detect_objects_bounded, Forall_cons_1 in Hd as [Hdet _].
    by rewrite (process_objects_no_focal self IndexError det dets [] frame Hf Hdet).
Qed.

Lemma process_frame_raises_early_witness :
  process_frame bare_detector blank = (Raised AttributeError, blank) /\
  process_frame
    (mkObjectDetection (fun _ => street_results) [[800%float]] 1.7%float) blank
  = (Raised IndexError, blank).
Proof.
  split.
  - apply (process_frame_raises_early bare_detector blank AttributeError).
    vm_compute. reflexivity.
  - eapply (process_frame_raises_early
              (mkObjectDetection (fun _ => street_results) [[800%float]] 1.7%float)
              blank IndexError).
    + vm_compute. reflexivity.
    + reflexivity.
Defined.

(** X11. A frame in which the detector finds no box gives the empty object
    list and is left untouched, whatever the camera matrix and the object
    height are (they are not looked at). *)
Theorem process_frame_no_detection (self : ObjectDetection) (frame : Frame) :
  raw_detections (model self frame) = [] ->
  detect_objects self frame = Returned [] /\
  process_frame self frame = (Returned (PyDict [("objects", PyList [])]), frame).
Proof.
  intros Hnone.
  assert (detect_objects self frame = Returned []) as Hd.
  { by rewrite detect_objects_spec, Hnone. }
  split; [done|]. by rewrite process_frame_unfold, Hd.
Qed.

Lemma process_frame_no_detection_witness :
  process_frame
    (mkObjectDetection (fun _ => [mkResult (mkBoxes []) coco; mkResult (mkBoxes []) ∅])
                       [] nan)
    blank
  = (Returned (PyDict [("objects", PyList [])]), blank).
Proof.
  apply (process_frame_no_detection
           (mkObjectDetection
              (fun _ => [mkResult (mkBoxes []) coco; mkResult (mkBoxes []) ∅])
              [] nan) blank).
  reflexivity.
Defined.

Lemma drawings_of_length (dets : list Detection) :
  Forall well_formed dets ->
  length (flat_map drawings_of dets) = (2 * length dets)%nat.
Proof.
  induction 1 as [|det dets (x1 & y1 & x2 & y2 & Hb & _) _ IH]; [done|].
  cbn [flat_map]. rewrite length_app, IH. unfold drawings_of. rewrite Hb.
  cbn. lia.
Qed.

(** X12. When [process_frame] returns, the drawing calls it made on the
    frame are, after whatever was drawn before and for each detection in
    order, the green rectangle of its box and then its label at
    (x_min, y_min - 10): two calls per detection, nothing else. *)
Theorem process_frame_draws (self : ObjectDetection) (frame frame' : Frame)
    (data : value) :
  process_frame self frame = (Returned data, frame') ->
  exists dets,
    detect_objects self frame = Returned dets /\
    overlay frame' = overlay frame ++ flat_map drawings_of dets /\
    length (overlay frame') = (length (overlay frame) + 2 * length dets)%nat.
Proof.
  rewrite process_frame_unfold.
  destruct (detect_objects self frame) as [dets|] eqn:Ed; [|done].
  destruct (process_objects self dets [] frame) as [[objects|] frame1] eqn:E;
    [|done].
  intros [= _ <-]. apply process_objects_returns in E as [_ ->].
  exists dets. split_and!; [done..|]. cbn.
  by rewrite length_app, (drawings_of_length dets (detect_objects_bounded _ _ _ Ed)).
Qed.

(** A frame that already carries one drawing. *)
Definition marked : Frame :=
  mkFrame [7; 7] [rectangle_call (0, 0) (1, 1) (0, 0, 0) 1].

Lemma process_frame_draws_witness :
  exists dets,
    detect_objects street_detector marked = Returned dets /\
    overlay (snd (process_frame street_detector marked))
      = overlay marked ++ flat_map drawings_of dets /\
    length (overlay (snd (process_frame street_detector marked)))
      = (length (overlay marked) + 2 * length dets)%nat.
Proof.
  eapply (process_frame_draws street_detector marked).
  vm_compute. reflexivity.
Defined.

(** X13. [calculate_distance] raises in three cases only, tried in this
    order: ValueError when the box does not have exactly four entries;
    IndexError when the camera matrix has no second row or that row no second
    entry; OverflowError when the pixel height is too large in magnitude to
    be converted to a float.  In every other case it returns. *)
Theorem calculate_distance_raises_iff (self : ObjectDetection)
    (bounding_box : list Z) (e : exn) :
  calculate_distance self bounding_box = Raised e <->
  (length bounding_box <> 4%nat /\ e = ValueError) \/
  (length bounding_box = 4%nat /\ e = IndexError /\
   (length (camera_matrix self) < 2 \/
    exists row, camera_matrix self !! 1%nat = Some row /\ length row < 2)%nat) \/
  (e = OverflowError /\
   (exists focal_length,
      index2 (camera_matrix self) 1 1 = Returned focal_length) /\
   exists x_min y_min x_max y_max,
     bounding_box = [x_min; y_min; x_max; y_max] /\
     float_overflow <= Z.abs (y_max - y_min)).
Proof.
  destruct bounding_box as [|x1 [|y1 [|x2 [|y2 [|]]]]];
    try (cbn; split;
         [intros [= <-]; left; split; [cbn; lia|done]
         |intros [[_ ->]|[(Hl & _)|(_ & _ & ? & ? & ? & ? & [=] & _)]];
            [done|cbn in Hl; lia]]).
  rewrite GeometryProps.calculate_distance_unfold.
  unfold index2, index, mbind, outcome_bind, mret, outcome_ret.
  destruct (camera_matrix self !! 1%nat) as [row|] eqn:Er.
  - destruct (row !! 1%nat) as [focal_length|] eqn:Ef.
    + unfold float_of_int.
      destruct (Z.ltb_spec (Z.abs (y2 - y1)) float_overflow) as [Hfit|Hbig].
      * split; [done|].
        intros [[Hl _]|[(_ & _ & [Hm|(row' & Hr' & Hrow)])
                       |(_ & _ & ? & ? & ? & ? & [= <- <- <- <-] & Hb)]].
        -- done.
        -- apply lookup_lt_Some in Er. lia.
        -- injection Hr' as <-. apply lookup_lt_Some in Ef. lia.
        -- lia.
      * split.
        -- intros [= <-]. right. right.
           split_and!; [done|by exists focal_length|].
           by exists x1, y1, x2, y2.
        -- intros [[Hl _]|[(_ & _ & [Hm|(row' & Hr' & Hrow)])|(-> & _)]].
           ++ done.
           ++ apply lookup_lt_Some in Er. lia.
           ++ injection Hr' as <-. apply lookup_lt_Some in Ef. lia.
           ++ done.
    + split.
      * intros [= <-]. right. left. split_and!; [done..|]. right. exists row.
        split; [done|]. apply lookup_ge_None in Ef. lia.
      * intros [[Hl _]|[(_ & -> & _)|(_ & [f [=]] & _)]]; done.
  - split.
    + intros [= <-]. right. left. split_and!; [done..|]. left.
      apply lookup_ge_None in Er. lia.
    + intros [[Hl _]|[(_ & -> & _)|(_ & [f [=]] & _)]]; done.
Qed.

(** X19. Whenever [process_frame] returns, [detect_objects] has returned
    and the "objects" list holds, position by position, the record of each
    detection: its class, the distance [calculate_distance] gives for its
    box and the centre [get_center] gives for it. *)
Theorem process_frame_records (self : ObjectDetection) (frame frame' : Frame)
    (data : value) :
  process_frame self frame = (Returned data, frame') ->
  exists dets objects,
    detect_objects self frame = Returned dets /\
    data = PyDict [("objects", PyList objects)] /\
    length objects = length dets /\
    Forall2 (fun det record =>
               exists distance center,
                 calculate_distance self (bounding_box det) = Returned distance /\
                 get_center (bounding_box det) = Returned center /\
                 record = PyDict [("class", PyStr (class det));
                                  ("distance", PyFloat distance);
                                  ("center", PyTuple [PyInt center.1;
                                                      PyInt center.2])])
            dets objects.
Proof.
  rewrite process_frame_unfold.
  destruct (detect_objects self frame) as [dets|] eqn:Ed; [|done].
  destruct (process_objects self dets [] frame) as [[objects|] frame1] eqn:E;
    [|done].
  intros [= <- _]. apply process_objects_returns in E as [(rs & -> & HF) _].
  exists dets, rs. split_and!; [done..| |].
  - symmetry. by eapply Forall2_length.
  - eapply Forall2_impl; [exact HF|]. by intros det record Hr.
Qed.

Lemma process_frame_records_witness :
  exists dets objects,
    detect_objects street_detector blank = Returned dets /\
    object_data_of [("person", 6.8%float, (200, 150));
                    ("car", infinity, (20, 20));
                    ("person", 34%float, (410, 120))]
    = PyDict [("objects", PyList objects)] /\
    length objects = length dets /\
    Forall2 (fun det record =>
               exists distance center,
                 calculate_distance street_detector (bounding_box det)
                 = Returned distance /\
                 get_center (bounding_box det) = Returned center /\
                 record = PyDict [("class", PyStr (class det));
                                  ("distance", PyFloat distance);
                                  ("center", PyTuple [PyInt center.1;
                                                      PyInt center.2])])
            dets objects.
Proof.
  eapply (process_frame_records street_detector blank).
  vm_compute. reflexivity.
Defined.

(** X14. The distance depends on the box through its pixel height only: the
    x coordinates play no part, and moving the box up or down changes
    nothing. *)
Theorem calculate_distance_height_only (self : ObjectDetection)
    (x_min y_min x_max y_max x_min' x_max' dy : Z) :
  calculate_distance self [x_min'; y_min + dy; x_max'; y_max + dy]
  = calculate_distance self [x_min; y_min; x_max; y_max].
Proof.
  rewrite !GeometryProps.calculate_distance_unfold.
  by replace (y_max + dy - (y_min + dy)) with (y_max - y_min) by lia.
Qed.

(** X15. [get_center] raises ValueError exactly when the box does not have
    four entries, and it commutes with translations: the centre of a box
    moved by (dx, dy) is the centre moved by (dx, dy). *)
Theorem get_center_translation (bounding_box : list Z)
    (x_min y_min x_max y_max dx dy : Z) :
  (raised (get_center bounding_box) = true <-> length bounding_box <> 4%nat) /\
  (forall e, get_center bounding_box = Raised e -> e = ValueError) /\
  get_center [x_min + dx; y_min + dy; x_max + dx; y_max + dy]
  = (center ← get_center [x_min; y_min; x_max; y_max];
     mret (center.1 + dx, center.2 + dy)).
Proof.
  split_and!.
  - destruct bounding_box as [|x1 [|y1 [|x2 [|y2 [|]]]]]; cbn; split;
      try done; try lia.
  - intros e. by destruct bounding_box as [|x1 [|y1 [|x2 [|y2 [|]]]]];
      cbn; intros [= <-].
  - cbn. do 2 f_equal.
    + replace (x_max + dx - (x_min + dx)) with (x_max - x_min) by lia. lia.
    + replace (y_max + dy - (y_min + dy)) with (y_max - y_min) by lia. lia.
Qed.

End DetectionProps.

(** ** More on save_to_json: what it refuses and what it touches *)

Module SaveProps.
Import cv2 Py ultralytics ObjectDetection Serialization FrameProps
  SerializationProps.

(** The values the encoder goes through without raising: no object it has
    no rule for and no int beyond the digit limit, at any depth. *)
Fixpoint serializable (v : value) : bool :=
  match v with
  | PyInt z => (Z.abs z <? 10 ^ json.max_str_digits)%Z
  | PyTuple items | PyList items => forallb serializable items
  | PyDict items => forallb (fun item => serializable (snd item)) items
  | PyObject _ => false
  | _ => true
  end.

Definition encoder_error (e : exn) : Prop := e = TypeError \/ e = ValueError.

Lemma collect_raised {A B} (f : A -> outcome B) (ok : A -> bool) (l : list A) :
  Forall (fun x => raised (f x) = negb (ok x) /\
                   forall e, f x = Raised e -> encoder_error e) l ->
  raised (collect f l) = negb (forallb ok l) /\
  forall e, collect f l = Raised e -> encoder_error e.
Proof.
  induction 1 as [|x l [Hx Hex] _ [IH IHe]]; cbn; [done|].
  unfold mbind, outcome_bind, mret, outcome_ret.
  destruct (f x) as [y|e0] eqn:Ef; cbn in *.
  - destruct (ok x); [|done]. cbn.
    destruct (collect f l) as [ys|e1]; cbn in *; [done|].
    split; [done|]. intros e [= <-]. by apply IHe.
  - destruct (ok x); [done|]. split; [done|]. intros e [= <-]. by apply Hex.
Qed.

Lemma encode_raises (v : value) :
  raised (json.encode v) = negb (serializable v) /\
  forall e, json.encode v = Raised e -> encoder_error e.
Proof.
  induction v as [| |z| | |items IH|items IH|items IH|] using value_nested_ind;
    cbn [json.encode serializable]; try (by split).
  - destruct (Z.abs z <? 10 ^ json.max_str_digits)%Z; cbn; split; try done.
    intros e [= <-]. by right.
  - destruct (collect_raised json.encode serializable items IH) as [Hr He].
    unfold mbind, outcome_bind, mret, outcome_ret.
    destruct (collect json.encode items) as [docs|e0]; cbn in *; [done|].
    split; [done|]. intros e [= <-]. by apply He.
  - destruct (collect_raised json.encode serializable items IH) as [Hr He].
    unfold mbind, outcome_bind, mret, outcome_ret.
    destruct (collect json.encode items) as [docs|e0]; cbn in *; [done|].
    split; [done|]. intros e [= <-]. by apply He.
  - destruct (collect_raised
                (fun item => d ← json.encode (snd item); mret (fst item, d))
                (fun item => serializable (snd item)) items) as [Hr He].
    { eapply Forall_impl; [exact IH|]. intros [k x] [Hx Hex]. cbn in *.
      unfold mbind, outcome_bind, mret, outcome_ret.
      destruct (json.encode x) as [d|e0]; cbn in *; [done|].
      split; [done|]. intros e [= <-]. by apply Hex. }
    unfold mbind at 1, outcome_bind at 1, mret at 1, outcome_ret at 1.
    destruct (collect _ items) as [docs|e0]; cbn in *; [done|].
    split; [done|]. intros e [= <-]. by apply He.
  - split; [done|]. intros e [= <-]. by left.
Qed.

Lemma save_to_json_unfold (self : ObjectDetection) (filename : string)
    (object_data : value) (disk : json.FileSystem) :
  save_to_json self filename object_data disk
  = match json.open_refused disk filename with
    | Some e => (Raised e, disk)
    | None =>
        match json.encode object_data with
        | Returned doc => (Returned tt, <[filename := json.Text 4 doc]> disk)
        | Raised e => (Raised e, <[filename := json.Unfinished]> disk)
        end
    end.
Proof.
  unfold save_to_json, json.open_w, json.dump, get, modify, raise, lift, mbind,
    eff_bind.
  destruct (json.open_refused disk filename); [done|].
  destruct (json.encode object_data); [|done]. by rewrite insert_twice.
Qed.



(** How deeply lists, tuples and dicts are nested in a value. *)
Fixpoint depth (v : value) : nat :=
  match v with
  | PyTuple items | PyList items => S (foldr Nat.max 0%nat (map depth items))
  | PyDict items =>
      S (foldr Nat.max 0%nat (map (fun item => depth (snd item)) items))
  | _ => 0%nat
  end.

(** X16. For data nested no deeper than sixteen levels (an object list is
    nested four deep; the encoder recurses on the nesting), [save_to_json]
    raises in two ways only.  Either [open] refuses the name: that exception
    is raised and nothing is touched.  Or the encoder raises, which it does
    exactly when the data holds, at any depth, an object it has no rule for
    or an int beyond the digit limit, and then with TypeError or ValueError:
    the named file has already been truncated and is left unfinished, so
    what it held before is lost. *)
Theorem save_to_json_raises_iff (self : ObjectDetection) (filename : string)
    (object_data : value) (disk disk' : json.FileSystem) (e : exn) :
  (depth object_data <= 16)%nat ->
  (save_to_json self filename object_data disk = (Raised e, disk') <->
   (json.open_refused disk filename = Some e /\ disk' = disk) \/
   (json.open_refused disk filename = None /\
    json.encode object_data = Raised e /\
    disk' = <[filename := json.Unfinished]> disk)) /\
  raised (json.encode object_data) = negb (serializable object_data) /\
  (json.encode object_data = Raised e -> e = TypeError \/ e = ValueError).
Proof.
  intros _. destruct (encode_raises object_data) as [Hr He].
  split_and!; [|done|apply He]. rewrite save_to_json_unfold.
  destruct (json.open_refused disk filename) as [e0|].
  - split.
    + intros [= <- <-]. by left.
    + by intros [[[= <-] ->]|[[=] _]].
  - destruct (json.encode object_data) as [doc|e0]; split.
    + done.
    + by intros [[[=] _]|(_ & [=] & _)].
    + intros [= <- <-]. by right.
    + by intros [[[=] _]|(_ & [= <-] & ->)].
Qed.

(** An object list one of whose distances is an array the encoder has no
    rule for, saved over an earlier file. *)
Definition unencodable : value :=
  PyDict [("objects",
           PyList [PyDict [("class", PyStr "person");
                           ("distance", PyObject "ndarray");
                           ("center", PyTuple [PyInt 200; PyInt 150])]])].
Definition earlier : json.FileSystem :=
  <["objects.json" := json.Text 4 (json.Object [("objects", json.Array [])])]> ∅.

Lemma save_to_json_raises_iff_witness :
  save_to_json street_detector "objects.json" unencodable earlier
  = (Raised TypeError, <["objects.json" := json.Unfinished]> earlier) /\
  save_to_json street_detector "" unencodable earlier
  = (Raised FileNotFoundError, earlier) /\
  raised (json.encode unencodable) = negb (serializable unencodable).
Proof.
  split_and!.
  - apply (save_to_json_raises_iff street_detector "objects.json" unencodable
             earlier); [vm_compute; lia|].
    right. split_and!; reflexivity.
  - apply (save_to_json_raises_iff street_detector "" unencodable earlier);
      [vm_compute; lia|].
    left. split; reflexivity.
  - apply (save_to_json_raises_iff street_detector "" unencodable earlier
             earlier TypeError).
    vm_compute. lia.
Defined.



End SaveProps.
